(** * AdminDashboard: role hierarchy, session gate and roster actions

    A shallow embedding of [frontend/login_Api/src/AdminDashboard.jsx].
    JavaScript objects are finite maps from property names to values, the
    component's [useState] cells are a record, and the asynchronous handlers
    are programs of a small state-and-exception monad that also records the
    requests sent to the backend. *)

From stdpp Require Import base option list strings gmap.
From Stdlib Require Import ZArith Lia.

Local Open Scope string_scope.
Local Open Scope Z_scope.
Local Open Scope list_scope.

(** ** JavaScript values the component manipulates *)

(** A prop, an argument or a property that holds a string or is missing:
    [None] is the [undefined] of an absent prop or property, and the [null]
    of an empty [localStorage] key or view target. *)
Abbreviation jsstring := (option string).

(** [!!x] of JavaScript: a missing value and the empty string are falsy. *)
Definition truthy (x : jsstring) : bool :=
  match x with
  | Some s => negb (String.eqb s EmptyString)
  | None => false
  end.

(** String conversion as a template literal or a property key performs it. *)
Definition to_text (x : jsstring) : string := default "undefined" x.

(** [a || b] where [b] is a string. *)
Definition or_else (a : jsstring) (b : string) : string :=
  if truthy a then to_text a else b.

(** [a === b] on values that are strings or missing. *)
Definition strict_eq (a b : jsstring) : bool := bool_decide (a = b).

(** What reading a property of the [ROLE_LEVELS] literal yields: an own
    numeric level, [undefined], or a member the literal inherits from
    [Object.prototype] (a function, or the prototype itself). *)
Inductive jsval :=
  | JNum (n : Z)
  | JUndefined
  | JInherited (name : string).

Module Hierarchy.

Definition availableRoles : list string :=
  ["user"; "moderator"; "admin"; "superAdmin"; "manager"].

Definition ROLE_LEVELS : gmap string Z :=
  {[ "user" := 0; "moderator" := 1; "admin" := 2; "superAdmin" := 3;
     "manager" := 4 ]}.

(** The property names every object literal inherits. *)
Definition Object_prototype : list string :=
  ["constructor"; "hasOwnProperty"; "isPrototypeOf"; "propertyIsEnumerable";
   "toLocaleString"; "toString"; "valueOf"; "__proto__";
   "__defineGetter__"; "__defineSetter__"; "__lookupGetter__";
   "__lookupSetter__"].

(** [ROLE_LEVELS[key]]: own properties first, then the prototype. *)
Definition get (key : string) : jsval :=
  match ROLE_LEVELS !! key with
  | Some n => JNum n
  | None =>
      if bool_decide (key ∈ Object_prototype) then JInherited key
      else JUndefined
  end.

Section Comparison.
(** Two inherited members are compared through their source texts, which
    the engine chooses: [text_lt f g] is that comparison for the members
    named [f] and [g]. Against a number, an inherited member converts to
    NaN, as [undefined] does, and every comparison with NaN is false. *)
Variable text_lt : string → string → bool.

Definition lt (a b : jsval) : bool :=
  match a, b with
  | JNum x, JNum y => x <? y
  | JInherited f, JInherited g => text_lt f g
  | _, _ => false
  end.

Definition le (a b : jsval) : bool :=
  match a, b with
  | JNum x, JNum y => x <=? y
  | JInherited f, JInherited g => negb (text_lt g f)
  | _, _ => false
  end.

Definition gt (a b : jsval) : bool := lt b a.

(** The [disabled] attribute of the role-change [select]. *)
Definition isDropdownDisabled (loading isCurrentUser : bool)
    (currentUserRole role : string) : bool :=
  loading || isCurrentUser || lt (get currentUserRole) (get role).

(** The [disabled] attribute of one [option] of that [select]. *)
Definition isOptionDisabled (currentUserRole userRole role : string) : bool :=
  gt (get role) (get currentUserRole)
  || (String.eqb userRole "superAdmin"
      && negb (String.eqb currentUserRole "superAdmin")).

(** The [disabled] attribute of the Delete button. *)
Definition isDeleteDisabled (loading isCurrentUser : bool)
    (currentUserRole role : string) : bool :=
  loading || isCurrentUser
  || (le (get currentUserRole) (get role)
      && negb (String.eqb currentUserRole "superAdmin"))
  || (String.eqb role "superAdmin"
      && negb (String.eqb currentUserRole "superAdmin")).
End Comparison.

End Hierarchy.

(** ** The component: state, effects, handlers and rendering *)

Module Dashboard.

(** A user document of the backend, as the object the component receives:
    property name to (string) value; a missing property reads [undefined].
    A property that is JSON [null] has no counterpart here. *)
Abbreviation user := (gmap string string).

(** The six [useState] cells. *)
Record State := {
  users : list user;
  loading : bool;
  error : string;
  message : string;
  viewingUserId : jsstring;
  viewingUserEmail : jsstring;
}.

(** The state a freshly mounted component starts from. *)
Definition initial : State :=
  {| users := []; loading := false; error := EmptyString;
     message := EmptyString; viewingUserId := None;
     viewingUserEmail := None |}.

Inductive request :=
  | GET_users (bearer : jsstring)
  | PUT_changeRole (bearer : jsstring) (email : jsstring) (newRole : string)
  | DELETE_user (bearer : jsstring) (userId : jsstring).

(** The JSON body of a reply, as far as the component reads it. *)
Record data := {
  data_message : jsstring;
  data_users : option (list user);
}.

Record response := {
  ok : bool;
  body : option data;   (* [None]: reading the body throws *)
}.

(** What the network does with one request. *)
Inductive reply :=
  | Unreachable                 (* [fetch] rejects: no response at all *)
  | Responds (r : response).

(** What the component does to its surroundings: a confirmation prompt, or a
    request, recorded with the state the component is in when it is sent. *)
Inductive event :=
  | Prompted (text : string)
  | Sent (rq : request) (during : State).

Record World := {
  view : State;
  log : list event;
}.

(** *** The monad of the handlers: state, event log and exceptions *)

Inductive outcome (A : Type) :=
  | Done (a : A)
  | Thrown.
Arguments Done {A} a.
Arguments Thrown {A}.

Definition M (A : Type) : Type := World → outcome A * World.

Definition run {A} (m : M A) (w : World) : World := snd (m w).

#[export] Instance M_ret : MRet M := λ A a w, (Done a, w).

#[export] Instance M_bind : MBind M := λ A B f m w,
  match m w with
  | (Done a, w') => f a w'
  | (Thrown, w') => (Thrown, w')
  end.

Definition throw {A} : M A := λ w, (Thrown, w).

Definition update (f : State → State) : M unit :=
  λ w, (Done (), {| view := f (view w); log := log w |}).

Definition emit (e : State → event) : M unit :=
  λ w, (Done (), {| view := view w; log := log w ++ [e (view w)] |}).

(** [try { body } catch (err) { handler } finally { final }]. *)
Definition try_catch_finally (body handler final : M unit) : M unit := λ w,
  match body w with
  | (Done _, w1) => final w1
  | (Thrown, w1) =>
      match handler w1 with
      | (Done _, w2) => final w2
      | (Thrown, w2) => (final ;; throw) w2
      end
  end.

Definition setUsers (l : list user) : M unit :=
  update (λ s, {| users := l; loading := loading s; error := error s;
                  message := message s; viewingUserId := viewingUserId s;
                  viewingUserEmail := viewingUserEmail s |}).

Definition setLoading (b : bool) : M unit :=
  update (λ s, {| users := users s; loading := b; error := error s;
                  message := message s; viewingUserId := viewingUserId s;
                  viewingUserEmail := viewingUserEmail s |}).

Definition setError (e : string) : M unit :=
  update (λ s, {| users := users s; loading := loading s; error := e;
                  message := message s; viewingUserId := viewingUserId s;
                  viewingUserEmail := viewingUserEmail s |}).

Definition setMessage (m : string) : M unit :=
  update (λ s, {| users := users s; loading := loading s; error := error s;
                  message := m; viewingUserId := viewingUserId s;
                  viewingUserEmail := viewingUserEmail s |}).

Definition setViewingUserId (i : jsstring) : M unit :=
  update (λ s, {| users := users s; loading := loading s; error := error s;
                  message := message s; viewingUserId := i;
                  viewingUserEmail := viewingUserEmail s |}).

Definition setViewingUserEmail (e : jsstring) : M unit :=
  update (λ s, {| users := users s; loading := loading s; error := error s;
                  message := message s; viewingUserId := viewingUserId s;
                  viewingUserEmail := e |}).

(** [await fetch(...)]: the request leaves, then the network answers. *)
Definition fetch (rq : request) (net : reply) : M response :=
  emit (Sent rq) ;;
  match net with
  | Unreachable => throw
  | Responds r => mret r
  end.

(** [await response.json()], then reading a property of the result. *)
Definition json (r : response) : M data :=
  match body r with
  | Some d => mret d
  | None => throw
  end.

(** [window.confirm(text)], answered by the operator. *)
Definition confirm (text : string) (answer : bool) : M bool :=
  emit (λ _, Prompted text) ;; mret answer.

Definition console_error (label : string) : M unit := mret ().

Section Component.
(** The props of [AdminDashboard]. *)
Variables authToken currentUserRole : jsstring.

Definition fetchUsers (net : reply) : M unit :=
  setLoading true ;;
  setError EmptyString ;;
  setMessage EmptyString ;;
  try_catch_finally
    (response ← fetch (GET_users authToken) net;
     data ← json response;
     if ok response then
       setUsers (default [] (data_users data))
     else
       setError (or_else (data_message data)
                   "Failed to fetch users. Ensure you have permission."))
    (console_error "Error fetching users:" ;;
     setError "Network error or server is unreachable while fetching users. Ensure your backend is running.")
    (setLoading false).

(** The handlers below are closures of one render: [render] is the state
    that render saw, and [users render] the roster they compute from. *)
Definition handleChangeRole (render : State)
    (userId email : jsstring) (newRole : string) (net : reply) : M unit :=
  setLoading true ;;
  setMessage EmptyString ;;
  setError EmptyString ;;
  try_catch_finally
    (response ← fetch (PUT_changeRole authToken email newRole) net;
     data ← json response;
     if ok response then
       setMessage (or_else (data_message data)
                     ("Role for " +:+ to_text email +:+ " updated to "
                      +:+ newRole +:+ ".")) ;;
       setUsers ((λ user : user,
                    if strict_eq (user !! "_id") userId
                    then <["role" := newRole]> user
                    else user) <$> users render)
     else
       setError (or_else (data_message data)
                   "Failed to change role. Check your permissions."))
    (console_error "Error changing role:" ;;
     setError "Network error or server is unreachable while changing role.")
    (setLoading false).

Definition handleDeleteUser (render : State)
    (userId userEmail : jsstring) (answer : bool) (net : reply) : M unit :=
  confirmed ← confirm ("Are you sure you want to delete user: "
                       +:+ to_text userEmail
                       +:+ "? This action cannot be undone.") answer;
  if negb confirmed then mret ()
  else
    setLoading true ;;
    setMessage EmptyString ;;
    setError EmptyString ;;
    try_catch_finally
      (response ← fetch (DELETE_user authToken userId) net;
       data ← json response;
       if ok response then
         setMessage (or_else (data_message data)
                       ("User " +:+ to_text userEmail
                        +:+ " deleted successfully.")) ;;
         setUsers (filter (λ user : user, user !! "_id" ≠ userId)
                     (users render))
       else
         setError (or_else (data_message data)
                     "Failed to delete user. Check your permissions."))
      (console_error "Error deleting user:" ;;
       setError "Network error or server is unreachable while deleting user.")
      (setLoading false).

Definition handleViewUserTodos (userId userEmail : jsstring) : M unit :=
  setViewingUserId userId ;;
  setViewingUserEmail userEmail.

Definition handleBackToUsers (net : reply) : M unit :=
  setViewingUserId None ;;
  setViewingUserEmail None ;;
  fetchUsers net.

(** The body of the effect that runs on mount and whenever a prop changes. *)
Definition useEffect (net : reply) : M unit :=
  if truthy authToken
     && (strict_eq currentUserRole (Some "admin")
         || strict_eq currentUserRole (Some "superAdmin")
         || strict_eq currentUserRole (Some "manager")) then
    fetchUsers net
  else if truthy authToken && truthy currentUserRole
          && negb (strict_eq currentUserRole (Some "admin"))
          && negb (strict_eq currentUserRole (Some "superAdmin"))
          && negb (strict_eq currentUserRole (Some "manager")) then
    setError "You do not have sufficient administrative privileges to view this dashboard."
  else mret ().

(** *** Rendering *)

(** One table row: the cells and the [disabled] attributes of its controls. *)
Record row := {
  key : jsstring;
  name_cell : jsstring;
  email_cell : jsstring;
  role_cell : jsstring;
  select_disabled : bool;
  options : list (string * bool);   (* role offered, [disabled] *)
  delete_disabled : bool;
}.

Inductive screen :=
  | PleaseLogIn
  | AccessDenied
  | TodoList (title : string) (token role userId userEmail : jsstring)
  | UserList (error_banner message_banner : option string)
      (loading_banner no_users : bool) (table : option (list row)).

(** How the engine compares two inherited members (see [Hierarchy]), and
    what [localStorage.getItem('userEmail')] returns. *)
Variable text_lt : string → string → bool.
Variable loggedInUserEmail : jsstring.

(** The body of [users.map((user) => ...)] in the table. *)
Definition render_row (s : State) (user : user) : row :=
  let isCurrentUser :=
    match user !! "email", loggedInUserEmail with
    | Some e, Some mine => String.eqb e mine
    | _, _ => false
    end in
  let isDropdownDisabled :=
    Hierarchy.isDropdownDisabled text_lt (loading s) isCurrentUser
      (to_text currentUserRole) (to_text (user !! "role")) in
  {| key := user !! "_id";
     name_cell := user !! "name";
     email_cell := user !! "email";
     role_cell := user !! "role";
     select_disabled := isDropdownDisabled;
     options :=
       (λ role, (role, Hierarchy.isOptionDisabled text_lt
                         (to_text currentUserRole)
                         (to_text (user !! "role")) role))
         <$> Hierarchy.availableRoles;
     delete_disabled :=
       Hierarchy.isDeleteDisabled text_lt (loading s) isCurrentUser
         (to_text currentUserRole) (to_text (user !! "role")) |}.

Definition banner (text : string) : option string :=
  if String.eqb text EmptyString then None else Some text.

Definition render (s : State) : screen :=
  if negb (truthy authToken) then PleaseLogIn
  else if negb (strict_eq currentUserRole (Some "admin"))
          && negb (strict_eq currentUserRole (Some "superAdmin"))
          && negb (strict_eq currentUserRole (Some "manager")) then
    AccessDenied
  else if truthy (viewingUserId s) then
    TodoList ("Todos for " +:+ or_else (viewingUserEmail s) "Selected User")
      authToken currentUserRole (viewingUserId s) (viewingUserEmail s)
  else
    UserList (banner (error s)) (banner (message s)) (loading s)
      (bool_decide (length (users s) = 0%nat) && negb (loading s)
       && String.eqb (error s) EmptyString)
      (if bool_decide (0 < length (users s))%nat
       then Some (render_row s <$> users s) else None).
End Component.

(** The requests among the events of a log, in the order they were sent. *)
Fixpoint requests (l : list event) : list (request * State) :=
  match l with
  | [] => []
  | Sent rq during :: l => (rq, during) :: requests l
  | Prompted _ :: l => requests l
  end.

(** The reply takes a handler down its [response.ok] branch: a response
    arrived, its body is a JSON object and its status is 2xx. *)
Definition succeeds (net : reply) : bool :=
  match net with
  | Responds r => ok r && bool_decide (is_Some (body r))
  | Unreachable => false
  end.

(** An operation that clears both banners, sends the single request [rq]
    and settles with at most one banner: after a success the error is empty
    (and the message is set when the operation [announces] its success),
    after a failure the message is empty and the error is set. *)
Definition settles (op : reply → M unit) (rq : request) (announces : bool)
    : Prop :=
  ∀ net w, ∃ during w',
    op net w = (Done (), w')
    ∧ requests (log w') = requests (log w) ++ [(rq, during)]
    ∧ error during = EmptyString ∧ message during = EmptyString
    ∧ (error (view w') = EmptyString ∨ message (view w') = EmptyString)
    ∧ loading (view w') = false
    ∧ if succeeds net then
        error (view w') = EmptyString
        ∧ if announces then message (view w') ≠ EmptyString
          else message (view w') = EmptyString
      else
        message (view w') = EmptyString ∧ error (view w') ≠ EmptyString.

(** A handler of the render on screen runs: the closure it was created in is
    the state the world shows. *)
Definition click (handler : State → M unit) (w : World) : World :=
  run (handler (view w)) w.

(** The rows of the table a screen shows; none when it shows no table. *)
Definition rows_of (sc : screen) : list row :=
  match sc with
  | UserList _ _ _ _ (Some table) => table
  | _ => []
  end.

(** A 2xx reply, and a non-2xx reply, whose JSON body is [d]. *)
Definition accepts (d : data) : reply :=
  Responds {| ok := true; body := Some d |}.

Definition rejects (d : data) : reply :=
  Responds {| ok := false; body := Some d |}.

(** The state a network operation shows while its request is in flight, and
    the state it settles in: roster, error and message as given, loading
    cleared, the view target untouched. *)
Definition in_flight (s : State) : State :=
  {| users := users s; loading := true; error := EmptyString;
     message := EmptyString; viewingUserId := viewingUserId s;
     viewingUserEmail := viewingUserEmail s |}.

Definition settled (s : State) (l : list user) (e m : string) : State :=
  {| users := l; loading := false; error := e; message := m;
     viewingUserId := viewingUserId s;
     viewingUserEmail := viewingUserEmail s |}.

End Dashboard.

(** A roster of two users and a reply that accepts a request, for the
    examples. *)
Module Sample.
Import Dashboard.

Definition alice : user :=
  {[ "_id" := "u1"; "name" := "Alice"; "email" := "alice@example.org";
     "role" := "user" ]}.

Definition bob : user :=
  {[ "_id" := "u2"; "name" := "Bob"; "email" := "bob@example.org";
     "role" := "moderator" ]}.

Definition listed : State :=
  {| users := [alice; bob]; loading := false; error := EmptyString;
     message := EmptyString; viewingUserId := None;
     viewingUserEmail := None |}.

Definition accepted : reply :=
  Responds {| ok := true;
              body := Some {| data_message := None; data_users := None |} |}.

Definition no_body : data :=
  {| data_message := None; data_users := None |}.
End Sample.

(** * Properties *)

(** ** The role hierarchy *)

Section HierarchyFacts.
Import Hierarchy.
Variable text_lt : string → string → bool.


Lemma availableRoles_level r :
  r ∈ availableRoles → ∃ n, ROLE_LEVELS !! r = Some n ∧ 0 ≤ n ≤ 4.
Proof.
  unfold availableRoles. rewrite !elem_of_cons, elem_of_nil.
  intros H. decompose [or] H; try done; subst;
    eexists; (split; [vm_compute; reflexivity | lia]).
Qed.


Lemma get_level r n : ROLE_LEVELS !! r = Some n → get r = JNum n.
Proof. unfold get. by intros ->. Qed.



(** The whole table of the role-change control, acting role by row and
    target role by column, with no request in flight and another user as
    the target. *)
Example isDropdownDisabled_table :
  (λ r1, isDropdownDisabled text_lt false false r1 <$> availableRoles)
    <$> availableRoles
  = [ [false; true;  true;  true;  true];
      [false; false; true;  true;  true];
      [false; false; false; true;  true];
      [false; false; false; false; true];
      [false; false; false; false; false] ].
Proof. vm_compute. reflexivity. Qed.

(** C1. For every ordered pair of roles of the enumeration, both have a
    level in [ROLE_LEVELS]; with no request in flight and the target another
    user, the role-change dropdown is disabled exactly when the acting
    role's level is strictly lower than the target's; with a request in
    flight or the target being the acting user it is disabled. *)
Theorem isDropdownDisabled_by_level r1 r2 :
  r1 ∈ availableRoles → r2 ∈ availableRoles →
  ∃ l1 l2,
    ROLE_LEVELS !! r1 = Some l1 ∧ ROLE_LEVELS !! r2 = Some l2 ∧
    (isDropdownDisabled text_lt false false r1 r2 = true ↔ l1 < l2) ∧
    ∀ loading isCurrentUser,
      loading = true ∨ isCurrentUser = true →
      isDropdownDisabled text_lt loading isCurrentUser r1 r2 = true.
Proof.
  intros [l1 [E1 _]]%availableRoles_level [l2 [E2 _]]%availableRoles_level.
  exists l1, l2. repeat split; try assumption.
  - unfold isDropdownDisabled. rewrite (get_level _ _ E1), (get_level _ _ E2).
    simpl. apply Z.ltb_lt.
  - unfold isDropdownDisabled. rewrite (get_level _ _ E1), (get_level _ _ E2).
    simpl. apply Z.ltb_lt.
  - intros loading isCurrentUser [-> | ->]; unfold isDropdownDisabled;
      [reflexivity | by rewrite orb_true_r].
Qed.

(** C2. For every acting and target role of the enumeration, the delete
    control is disabled exactly when a request is in flight, or the row is
    the acting user, or the acting level is at most the target level and the
    acting role is not superAdmin, or the target role is superAdmin and the
    acting role is not. For a manager acting on a superAdmin the level
    clause is false, the top-tier clause is true, and delete is disabled. *)
Theorem isDeleteDisabled_by_level r1 r2 :
  r1 ∈ availableRoles → r2 ∈ availableRoles →
  (∃ l1 l2,
     ROLE_LEVELS !! r1 = Some l1 ∧ ROLE_LEVELS !! r2 = Some l2 ∧
     ∀ loading isCurrentUser,
       isDeleteDisabled text_lt loading isCurrentUser r1 r2 = true ↔
       loading = true ∨ isCurrentUser = true
       ∨ (l1 ≤ l2 ∧ r1 ≠ "superAdmin")
       ∨ (r2 = "superAdmin" ∧ r1 ≠ "superAdmin"))
  ∧ ROLE_LEVELS !! "manager" = Some 4 ∧ ROLE_LEVELS !! "superAdmin" = Some 3
  ∧ le text_lt (get "manager") (get "superAdmin")
    && negb (String.eqb "manager" "superAdmin") = false
  ∧ String.eqb "superAdmin" "superAdmin"
    && negb (String.eqb "manager" "superAdmin") = true
  ∧ isDeleteDisabled text_lt false false "manager" "superAdmin" = true.
Proof.
  intros [l1 [E1 _]]%availableRoles_level [l2 [E2 _]]%availableRoles_level.
  split; [|by vm_compute].
  exists l1, l2. split; [done|]. split; [done|].
  intros loading isCurrentUser. unfold isDeleteDisabled.
  rewrite (get_level _ _ E1), (get_level _ _ E2). simpl.
  rewrite !orb_true_iff, !andb_true_iff, !negb_true_iff.
  rewrite Z.leb_le, !String.eqb_eq, !String.eqb_neq. tauto.
Qed.

(** C3. For every acting, target and candidate role of the enumeration, the
    candidate's option is disabled exactly when the candidate's level
    exceeds the acting level, or the target's role is superAdmin and the
    acting role is not. For an admin acting on a moderator the options
    user, moderator and admin are enabled, superAdmin and manager
    disabled. *)
Theorem isOptionDisabled_by_level currentUserRole userRole role :
  currentUserRole ∈ availableRoles → userRole ∈ availableRoles →
  role ∈ availableRoles →
  (∃ lc lr,
     ROLE_LEVELS !! currentUserRole = Some lc
     ∧ ROLE_LEVELS !! role = Some lr
     ∧ (isOptionDisabled text_lt currentUserRole userRole role = true ↔
        lr > lc
        ∨ (userRole = "superAdmin" ∧ currentUserRole ≠ "superAdmin")))
  ∧ (λ role, (role, isOptionDisabled text_lt "admin" "moderator" role))
      <$> availableRoles
    = [("user", false); ("moderator", false); ("admin", false);
       ("superAdmin", true); ("manager", true)].
Proof.
  intros [lc [Ec _]]%availableRoles_level _ [lr [Er _]]%availableRoles_level.
  split; [|by vm_compute].
  exists lc, lr. split; [done|]. split; [done|].
  unfold isOptionDisabled, gt.
  rewrite (get_level _ _ Ec), (get_level _ _ Er). simpl.
  rewrite !orb_true_iff, !andb_true_iff, !negb_true_iff.
  rewrite Z.ltb_lt, Z.gt_lt_iff, !String.eqb_eq, !String.eqb_neq. tauto.
Qed.


(** Two members inherited from [Object.prototype] are the one pair of
    lookups whose comparison the table does not settle. *)
Remark isDropdownDisabled_inherited :
  isDropdownDisabled text_lt false false "constructor" "toString"
  = text_lt "constructor" "toString".
Proof. vm_compute. reflexivity. Qed.


End HierarchyFacts.


Lemma isDropdownDisabled_by_level_witness :
  "admin" ∈ Hierarchy.availableRoles
  ∧ "moderator" ∈ Hierarchy.availableRoles
  ∧ ∃ l1 l2,
      Hierarchy.ROLE_LEVELS !! "admin" = Some l1
      ∧ Hierarchy.ROLE_LEVELS !! "moderator" = Some l2
      ∧ (Hierarchy.isDropdownDisabled (λ _ _, false) false false
           "admin" "moderator" = true ↔ l1 < l2)
      ∧ ∀ loading isCurrentUser,
          loading = true ∨ isCurrentUser = true →
          Hierarchy.isDropdownDisabled (λ _ _, false) loading isCurrentUser
            "admin" "moderator" = true.
Proof.
  assert (H1 : "admin" ∈ Hierarchy.availableRoles)
    by (apply (bool_decide_unpack _); vm_compute; exact I).
  assert (H2 : "moderator" ∈ Hierarchy.availableRoles)
    by (apply (bool_decide_unpack _); vm_compute; exact I).
  split; [exact H1|]. split; [exact H2|].
  exact (isDropdownDisabled_by_level (λ _ _, false) "admin" "moderator" H1 H2).
Defined.

Lemma isDeleteDisabled_by_level_witness :
  "manager" ∈ Hierarchy.availableRoles
  ∧ "superAdmin" ∈ Hierarchy.availableRoles
  ∧ ∃ l1 l2,
      Hierarchy.ROLE_LEVELS !! "manager" = Some l1
      ∧ Hierarchy.ROLE_LEVELS !! "superAdmin" = Some l2
      ∧ ∀ loading isCurrentUser,
          Hierarchy.isDeleteDisabled (λ _ _, false) loading isCurrentUser
            "manager" "superAdmin" = true ↔
          loading = true ∨ isCurrentUser = true
          ∨ (l1 ≤ l2 ∧ "manager" ≠ "superAdmin")
          ∨ ("superAdmin" = "superAdmin" ∧ "manager" ≠ "superAdmin").
Proof.
  assert (H1 : "manager" ∈ Hierarchy.availableRoles)
    by (apply (bool_decide_unpack _); vm_compute; exact I).
  assert (H2 : "superAdmin" ∈ Hierarchy.availableRoles)
    by (apply (bool_decide_unpack _); vm_compute; exact I).
  split; [exact H1|]. split; [exact H2|].
  exact (proj1 (isDeleteDisabled_by_level (λ _ _, false)
                  "manager" "superAdmin" H1 H2)).
Defined.

Lemma isOptionDisabled_by_level_witness :
  "admin" ∈ Hierarchy.availableRoles
  ∧ "moderator" ∈ Hierarchy.availableRoles
  ∧ "superAdmin" ∈ Hierarchy.availableRoles
  ∧ ∃ lc lr,
      Hierarchy.ROLE_LEVELS !! "admin" = Some lc
      ∧ Hierarchy.ROLE_LEVELS !! "superAdmin" = Some lr
      ∧ (Hierarchy.isOptionDisabled (λ _ _, false)
           "admin" "moderator" "superAdmin" = true ↔
         lr > lc ∨ ("moderator" = "superAdmin" ∧ "admin" ≠ "superAdmin")).
Proof.
  assert (H1 : "admin" ∈ Hierarchy.availableRoles)
    by (apply (bool_decide_unpack _); vm_compute; exact I).
  assert (H2 : "moderator" ∈ Hierarchy.availableRoles)
    by (apply (bool_decide_unpack _); vm_compute; exact I).
  assert (H3 : "superAdmin" ∈ Hierarchy.availableRoles)
    by (apply (bool_decide_unpack _); vm_compute; exact I).
  split; [exact H1|]. split; [exact H2|]. split; [exact H3|].
  exact (proj1 (isOptionDisabled_by_level (λ _ _, false)
                  "admin" "moderator" "superAdmin" H1 H2 H3)).
Defined.


(** ** Lists of roster entries *)

Section Roster.
Context {A B : Type} (f : A → B).

Lemma split_unique (l : list A) (u : A) :
  NoDup (f <$> l) → u ∈ l →
  ∃ before after,
    l = before ++ u :: after
    ∧ Forall (λ x, f x ≠ f u) before ∧ Forall (λ x, f x ≠ f u) after.
Proof.
  intros Hnd (before & after & ->)%list_elem_of_split.
  rewrite fmap_app, fmap_cons in Hnd.
  apply NoDup_app in Hnd as (_ & Hbefore & Hafter).
  apply NoDup_cons in Hafter as [Hafter _].
  exists before, after. split; [done|].
  split; apply Forall_forall; intros x Hx E.
  - apply (Hbefore (f x)); [by apply list_elem_of_fmap_2|].
    rewrite E. left.
  - apply Hafter. rewrite <- E. by apply list_elem_of_fmap_2.
Qed.

Lemma filter_all (P : A → Prop) `{∀ x, Decision (P x)} (l : list A) :
  Forall P l → filter P l = l.
Proof.
  induction 1 as [|x l Hx _ IH]; [done|].
  by rewrite filter_cons_True, IH.
Qed.

Lemma fmap_fixed (g : A → A) (l : list A) :
  Forall (λ x, g x = x) l → g <$> l = l.
Proof.
  induction 1 as [|x l Hx _ IH]; [done|].
  by rewrite fmap_cons, Hx, IH.
Qed.
End Roster.

Lemma or_else_nonempty a b : b ≠ EmptyString → or_else a b ≠ EmptyString.
Proof.
  intros Hb. unfold or_else, truthy. destruct a as [s|]; [|done].
  destruct (String.eqb_spec s EmptyString); simpl; done.
Qed.

Lemma requests_app l1 l2 :
  Dashboard.requests (l1 ++ l2)
  = Dashboard.requests l1 ++ Dashboard.requests l2.
Proof. induction l1 as [|[] l1 IH]; simpl; by rewrite ?IH. Qed.

(** ** The session gate, the roster loader and the row actions *)

(** Runs a handler on an explicit world by unfolding the monad and nothing
    else, so that rosters, messages and lookups stay as written. *)
Ltac run_handler :=
  cbv beta iota zeta delta
    [Dashboard.fetchUsers Dashboard.handleChangeRole Dashboard.handleDeleteUser
     Dashboard.confirm Dashboard.fetch Dashboard.json
     Dashboard.try_catch_finally Dashboard.console_error Dashboard.throw
     Dashboard.setUsers Dashboard.setLoading Dashboard.setError
     Dashboard.setMessage Dashboard.update Dashboard.emit
     mbind mret Dashboard.M_bind Dashboard.M_ret
     negb Dashboard.body Dashboard.ok Dashboard.view Dashboard.log].

Section DashboardFacts.
Import Dashboard.
Variables authToken currentUserRole : jsstring.

(** The attributes of a rendered row are the three policies of [Hierarchy],
    at the role of the operator and the role of the row's user. *)
Lemma render_row_controls text_lt loggedInUserEmail s (u : user) :
  let isCurrentUser :=
    match u !! "email", loggedInUserEmail with
    | Some e, Some mine => String.eqb e mine
    | _, _ => false
    end in
  let r := render_row currentUserRole text_lt loggedInUserEmail s u in
  select_disabled r
  = Hierarchy.isDropdownDisabled text_lt (loading s) isCurrentUser
      (to_text currentUserRole) (to_text (u !! "role"))
  ∧ delete_disabled r
    = Hierarchy.isDeleteDisabled text_lt (loading s) isCurrentUser
        (to_text currentUserRole) (to_text (u !! "role"))
  ∧ options r
    = (λ role, (role, Hierarchy.isOptionDisabled text_lt
                        (to_text currentUserRole) (to_text (u !! "role"))
                        role))
        <$> Hierarchy.availableRoles.
Proof. done. Qed.

(** C4, as the code has it. With the token present and the role outside
    admin, superAdmin and manager, the component renders the access-denied
    view and the mount effect sends nothing; the effect sets the error
    message when the role is a non-empty string, and changes no state at
    all when the role is empty or missing. *)
Theorem gate_access_denied text_lt loggedInUserEmail s net w :
  truthy authToken = true →
  currentUserRole ∉ [Some "admin"; Some "superAdmin"; Some "manager"] →
  render authToken currentUserRole text_lt loggedInUserEmail s = AccessDenied
  ∧ ∃ w', useEffect authToken currentUserRole net w = (Done (), w')
          ∧ log w' = log w
          ∧ users (view w') = users (view w)
          ∧ if truthy currentUserRole
            then error (view w')
                 = "You do not have sufficient administrative privileges to view this dashboard."
            else view w' = view w.
Proof.
  intros Htok Hrole.
  assert (strict_eq currentUserRole (Some "admin") = false
          ∧ strict_eq currentUserRole (Some "superAdmin") = false
          ∧ strict_eq currentUserRole (Some "manager") = false)
    as (Ha & Hs & Hm).
  { unfold strict_eq. rewrite !bool_decide_eq_false.
    rewrite !elem_of_cons, elem_of_nil in Hrole. tauto. }
  split.
  - unfold render. by rewrite Htok, Ha, Hs, Hm.
  - unfold useEffect. rewrite Htok, Ha, Hs, Hm. simpl.
    destruct (truthy currentUserRole); eexists; (split; [reflexivity|done]).
Qed.

(** C5. On a roster with pairwise distinct identifiers that holds an entry
    [u] with identifier [userId], a successful role change returns with the
    roster equal to the old one except that [u] is replaced, in place, by
    [u] with its role set to [newRole] and every other property as before;
    a success message is set and the error is empty. *)
Theorem handleChangeRole_success st userId email newRole d events u :
  NoDup ((λ user : user, user !! "_id") <$> users st) →
  u ∈ users st →
  u !! "_id" = userId →
  ∃ before after w',
    handleChangeRole authToken st userId email newRole
      (Responds {| ok := true; body := Some d |})
      {| view := st; log := events |} = (Done (), w')
    ∧ users st = before ++ u :: after
    ∧ users (view w') = before ++ <["role" := newRole]> u :: after
    ∧ <["role" := newRole]> u !! "role" = Some newRole
    ∧ (∀ k, k ≠ "role" → <["role" := newRole]> u !! k = u !! k)
    ∧ message (view w') ≠ EmptyString
    ∧ error (view w') = EmptyString.
Proof.
  intros Hnd Hu Hid.
  destruct (split_unique _ _ _ Hnd Hu) as (before & after & Hl & Hb & Ha).
  exists before, after. eexists. split; [run_handler; reflexivity|].
  cbn [view users message error].
  split; [done|]. split; [|split; [|split; [|split]]].
  - rewrite Hl, fmap_app, fmap_cons. unfold strict_eq.
    rewrite (bool_decide_eq_true_2 _ Hid).
    rewrite !fmap_fixed; [done| |].
    + eapply Forall_impl; [exact Ha|]. intros x Hx. simpl in *.
      rewrite bool_decide_eq_false_2; [done|congruence].
    + eapply Forall_impl; [exact Hb|]. intros x Hx. simpl in *.
      rewrite bool_decide_eq_false_2; [done|congruence].
  - apply lookup_insert_eq.
  - intros k Hk. by apply lookup_insert_ne.
  - by apply or_else_nonempty.
  - done.
Qed.

(** C6. On such a roster a successful delete returns with exactly the entry
    [u] removed: what stood before it and what stood after it remain, in
    the same order. *)
Theorem handleDeleteUser_success st userId userEmail d events u :
  NoDup ((λ user : user, user !! "_id") <$> users st) →
  u ∈ users st →
  u !! "_id" = userId →
  ∃ before after w',
    handleDeleteUser authToken st userId userEmail true
      (Responds {| ok := true; body := Some d |})
      {| view := st; log := events |} = (Done (), w')
    ∧ users st = before ++ u :: after
    ∧ users (view w') = before ++ after
    ∧ (u ∉ users (view w'))
    ∧ length (users st) = S (length (users (view w'))).
Proof.
  intros Hnd Hu Hid.
  destruct (split_unique _ _ _ Hnd Hu) as (before & after & Hl & Hb & Ha).
  exists before, after. eexists. split; [run_handler; reflexivity|].
  cbn [view users].
  assert (Hf : filter (λ user : user, user !! "_id" ≠ userId) (users st)
               = before ++ after).
  { rewrite Hl, filter_app, filter_cons_False by (intros H; by apply H).
    rewrite !filter_all; [done| |].
    - eapply Forall_impl; [exact Ha|]. simpl. congruence.
    - eapply Forall_impl; [exact Hb|]. simpl. congruence. }
  rewrite Hf. split; [done|]. split; [done|]. split.
  - rewrite <- Hf. rewrite list_elem_of_filter. tauto.
  - rewrite Hl, !length_app. simpl. lia.
Qed.

(** C7. From every state, [handleDeleteUser] with the confirmation declined
    returns after the prompt alone: no request is sent and no state cell
    (roster, loading, error, message, viewed user) changes. *)
Theorem handleDeleteUser_declined render userId userEmail net w :
  ∃ text,
    handleDeleteUser authToken render userId userEmail false net w
    = (Done (), {| view := view w; log := log w ++ [Prompted text] |})
    ∧ requests (log w ++ [Prompted text]) = requests (log w).
Proof.
  eexists. split; [reflexivity|].
  induction (log w) as [|[] l IH]; simpl; by rewrite ?IH.
Qed.

(** C8. Each of the three network operations, from every state, clears the
    error and the message before its one request leaves, and settles with
    at most one of them non-empty: after a success the error is empty and
    the only banner is the success message ([fetchUsers] has none to set),
    after a failure, whether an HTTP error or no usable response, the
    message is empty and the error is set. *)
Theorem operations_settle :
  settles (fetchUsers authToken) (GET_users authToken) false
  ∧ (∀ render userId email newRole,
       settles (handleChangeRole authToken render userId email newRole)
         (PUT_changeRole authToken email newRole) true)
  ∧ (∀ render userId userEmail,
       settles (handleDeleteUser authToken render userId userEmail true)
         (DELETE_user authToken userId) true).
Proof.
  repeat split; intros; intros net [s events];
    destruct net as [|[[] [d|]]]; run_handler; eexists _, _;
    (split; [reflexivity|]);
    cbn [succeeds ok body andb view log error message loading];
    rewrite ?requests_app; cbn [requests]; rewrite ?app_nil_r;
    repeat split; auto using or_else_nonempty; done.
Qed.

(** C9. When the first [fetchUsers] after mount meets a transport failure
    ([fetch] rejects), the call settles with the roster still the empty
    list, a non-empty error and the loading flag false; the mount effect of
    a caller the gate lets in is that call. *)
Theorem fetchUsers_first_unreachable :
  (∃ w', fetchUsers authToken Unreachable {| view := initial; log := [] |}
         = (Done (), w')
         ∧ users (view w') = []
         ∧ error (view w') ≠ EmptyString
         ∧ loading (view w') = false
         ∧ users initial = [])
  ∧ (truthy authToken = true →
     currentUserRole ∈ [Some "admin"; Some "superAdmin"; Some "manager"] →
     ∀ w, useEffect authToken currentUserRole Unreachable w
          = fetchUsers authToken Unreachable w).
Proof.
  split.
  - eexists. split; [reflexivity|]. by simpl.
  - intros Htok Hrole w. unfold useEffect. rewrite Htok.
    rewrite !elem_of_cons, elem_of_nil in Hrole.
    decompose [or] Hrole; try done; subst; reflexivity.
Qed.

(** Viewing a user's to-dos records the target and sends nothing; going back
    clears the target and fetches the roster once. *)
Lemma view_todos_and_back userId userEmail net s events :
  handleViewUserTodos userId userEmail {| view := s; log := events |}
  = (Done (),
     {| view := {| users := users s; loading := loading s; error := error s;
                   message := message s; viewingUserId := userId;
                   viewingUserEmail := userEmail |};
        log := events |})
  ∧ ∃ during w',
      handleBackToUsers authToken net {| view := s; log := events |}
      = (Done (), w')
      ∧ requests (log w') = requests events ++ [(GET_users authToken, during)]
      ∧ viewingUserId (view w') = None
      ∧ viewingUserEmail (view w') = None.
Proof.
  split; [unfold handleViewUserTodos, setViewingUserId, setViewingUserEmail;
          run_handler; reflexivity|].
  destruct net as [|[[] [d|]]]; eexists _, _;
    (split; [unfold handleBackToUsers, setViewingUserId,
               setViewingUserEmail; run_handler; reflexivity|]);
    cbn [view log viewingUserId viewingUserEmail];
    rewrite requests_app; done.
Qed.
End DashboardFacts.

(** The empty role: the token is present and the role is none of the three
    roles the gate lets in, yet the mount effect leaves the error message empty, so
    the unguarded form of C4 does not hold there. *)
Lemma gate_empty_role_sets_no_error :
  truthy (Some "token") = true
  ∧ (Some EmptyString ∉ [Some "admin"; Some "superAdmin"; Some "manager"])
  ∧ ¬ (Dashboard.error
         (Dashboard.view
            (Dashboard.run
               (Dashboard.useEffect (Some "token") (Some EmptyString)
                  Dashboard.Unreachable)
               {| Dashboard.view := Dashboard.initial; Dashboard.log := [] |}))
       ≠ EmptyString).
Proof.
  split; [reflexivity|]. split.
  - apply (bool_decide_unpack _). vm_compute. exact I.
  - intros H. apply H. reflexivity.
Qed.

(** ** The theorems at concrete inputs *)


Lemma fetchUsers_first_unreachable_witness :
  truthy (Some "token") = true
  ∧ Some "admin" ∈ [Some "admin"; Some "superAdmin"; Some "manager"]
  ∧ ∀ w,
      Dashboard.useEffect (Some "token") (Some "admin") Dashboard.Unreachable w
      = Dashboard.fetchUsers (Some "token") Dashboard.Unreachable w.
Proof.
  assert (H1 : truthy (Some "token") = true) by reflexivity.
  assert (H2 : Some "admin"
               ∈ [Some "admin"; Some "superAdmin"; Some "manager"])
    by (apply (bool_decide_unpack _); vm_compute; exact I).
  split; [exact H1|]. split; [exact H2|].
  exact (proj2 (fetchUsers_first_unreachable (Some "token") (Some "admin"))
           H1 H2).
Defined.

Lemma gate_access_denied_witness :
  truthy (Some "token") = true
  ∧ (Some "user" ∉ [Some "admin"; Some "superAdmin"; Some "manager"])
  ∧ Dashboard.render (Some "token") (Some "user") (λ _ _, false) None
      Sample.listed = Dashboard.AccessDenied
  ∧ ∃ w',
      Dashboard.useEffect (Some "token") (Some "user") Sample.accepted
        {| Dashboard.view := Dashboard.initial; Dashboard.log := [] |}
      = (Dashboard.Done (), w')
      ∧ Dashboard.log w' = []
      ∧ Dashboard.users (Dashboard.view w') = []
      ∧ Dashboard.error (Dashboard.view w')
        = "You do not have sufficient administrative privileges to view this dashboard.".
Proof.
  assert (H1 : truthy (Some "token") = true) by reflexivity.
  assert (H2 : Some "user"
               ∉ [Some "admin"; Some "superAdmin"; Some "manager"])
    by (apply (bool_decide_unpack _); vm_compute; exact I).
  split; [exact H1|]. split; [exact H2|].
  exact (gate_access_denied (Some "token") (Some "user") (λ _ _, false) None
           Sample.listed Sample.accepted
           {| Dashboard.view := Dashboard.initial; Dashboard.log := [] |}
           H1 H2).
Defined.

Lemma handleChangeRole_success_witness :
  NoDup ((λ user : Dashboard.user, user !! "_id")
           <$> Dashboard.users Sample.listed)
  ∧ Sample.bob ∈ Dashboard.users Sample.listed
  ∧ Sample.bob !! "_id" = Some "u2"
  ∧ ∃ before after w',
      Dashboard.handleChangeRole (Some "token") Sample.listed (Some "u2")
        (Some "bob@example.org") "admin" Sample.accepted
        {| Dashboard.view := Sample.listed; Dashboard.log := [] |}
      = (Dashboard.Done (), w')
      ∧ Dashboard.users Sample.listed = before ++ Sample.bob :: after
      ∧ Dashboard.users (Dashboard.view w')
        = before ++ <["role" := "admin"]> Sample.bob :: after.
Proof.
  assert (H1 : NoDup ((λ user : Dashboard.user, user !! "_id")
                        <$> Dashboard.users Sample.listed))
    by (apply (bool_decide_unpack _); vm_compute; exact I).
  assert (H2 : Sample.bob ∈ Dashboard.users Sample.listed)
    by (apply (bool_decide_unpack _); vm_compute; exact I).
  assert (H3 : Sample.bob !! "_id" = Some "u2") by (vm_compute; reflexivity).
  split; [exact H1|]. split; [exact H2|]. split; [exact H3|].
  destruct (handleChangeRole_success (Some "token") Sample.listed (Some "u2")
              (Some "bob@example.org") "admin"
              {| Dashboard.data_message := None; Dashboard.data_users := None |}
              [] Sample.bob H1 H2 H3)
    as (before & after & w' & Hrun & Hold & Hnew & _).
  exists before, after, w'.
  split; [exact Hrun|]. split; [exact Hold | exact Hnew].
Defined.

Lemma handleDeleteUser_success_witness :
  NoDup ((λ user : Dashboard.user, user !! "_id")
           <$> Dashboard.users Sample.listed)
  ∧ Sample.alice ∈ Dashboard.users Sample.listed
  ∧ Sample.alice !! "_id" = Some "u1"
  ∧ ∃ before after w',
      Dashboard.handleDeleteUser (Some "token") Sample.listed (Some "u1")
        (Some "alice@example.org") true Sample.accepted
        {| Dashboard.view := Sample.listed; Dashboard.log := [] |}
      = (Dashboard.Done (), w')
      ∧ Dashboard.users Sample.listed = before ++ Sample.alice :: after
      ∧ Dashboard.users (Dashboard.view w') = before ++ after.
Proof.
  assert (H1 : NoDup ((λ user : Dashboard.user, user !! "_id")
                        <$> Dashboard.users Sample.listed))
    by (apply (bool_decide_unpack _); vm_compute; exact I).
  assert (H2 : Sample.alice ∈ Dashboard.users Sample.listed)
    by (apply (bool_decide_unpack _); vm_compute; exact I).
  assert (H3 : Sample.alice !! "_id" = Some "u1") by (vm_compute; reflexivity).
  split; [exact H1|]. split; [exact H2|]. split; [exact H3|].
  destruct (handleDeleteUser_success (Some "token") Sample.listed (Some "u1")
              (Some "alice@example.org")
              {| Dashboard.data_message := None; Dashboard.data_users := None |}
              [] Sample.alice H1 H2 H3)
    as (before & after & w' & Hrun & Hold & Hnew & _).
  exists before, after, w'.
  split; [exact Hrun|]. split; [exact Hold | exact Hnew].
Defined.

(** The dashboard of an admin whose own row is Alice's: her row has both
    controls disabled, the moderator's row has them enabled, with the roles
    above admin disabled among the options. *)
Example render_admin_dashboard :
  Dashboard.render (Some "token") (Some "admin") (λ _ _, false)
    (Some "alice@example.org") Sample.listed
  = Dashboard.UserList None None false false
      (Some
         [ {| Dashboard.key := Some "u1";
              Dashboard.name_cell := Some "Alice";
              Dashboard.email_cell := Some "alice@example.org";
              Dashboard.role_cell := Some "user";
              Dashboard.select_disabled := true;
              Dashboard.options :=
                [("user", false); ("moderator", false); ("admin", false);
                 ("superAdmin", true); ("manager", true)];
              Dashboard.delete_disabled := true |};
           {| Dashboard.key := Some "u2";
              Dashboard.name_cell := Some "Bob";
              Dashboard.email_cell := Some "bob@example.org";
              Dashboard.role_cell := Some "moderator";
              Dashboard.select_disabled := false;
              Dashboard.options :=
                [("user", false); ("moderator", false); ("admin", false);
                 ("superAdmin", true); ("manager", true)];
              Dashboard.delete_disabled := false |} ]).
Proof. vm_compute. reflexivity. Qed.

(** Without a token the notice to log in is rendered, whatever the role. *)
Example render_logged_out role text_lt mine s :
  Dashboard.render None role text_lt mine s = Dashboard.PleaseLogIn.
Proof. reflexivity. Qed.

(** ** More on the role hierarchy *)

Section HierarchyPolicy.
Import Hierarchy.
Variable text_lt : string → string → bool.

Lemma ROLE_LEVELS_inj r1 r2 n :
  ROLE_LEVELS !! r1 = Some n → ROLE_LEVELS !! r2 = Some n → r1 = r2.
Proof.
  unfold ROLE_LEVELS.
  rewrite !lookup_insert_Some, !lookup_singleton_Some.
  intros H1 H2. decompose [and or] H1; decompose [and or] H2; subst;
    first [reflexivity | discriminate].
Qed.

Lemma superAdmin_level : ROLE_LEVELS !! "superAdmin" = Some 3.
Proof. vm_compute. reflexivity. Qed.

(** X1. A superAdmin's row is closed to everyone but a superAdmin: whatever
    the acting role (a manager, whose level is higher, included), every
    option of the row's select and its Delete button are disabled. *)
Theorem superAdmin_row_protected currentUserRole loading isCurrentUser :
  currentUserRole ≠ "superAdmin" →
  (∀ role, isOptionDisabled text_lt currentUserRole "superAdmin" role = true)
  ∧ isDeleteDisabled text_lt loading isCurrentUser currentUserRole "superAdmin"
    = true.
Proof.
  intros Hne%String.eqb_neq. split.
  - intros role. unfold isOptionDisabled. rewrite Hne. simpl.
    apply orb_true_r.
  - unfold isDeleteDisabled. rewrite Hne. simpl. apply orb_true_r.
Qed.

(** X2. A superAdmin may delete every other user when no request is in
    flight, whatever that user's role string: a manager, whose role it may
    not change, another superAdmin, or a role the table does not know. *)
Theorem superAdmin_deletes_anyone role :
  isDeleteDisabled text_lt false false "superAdmin" role = false
  ∧ isDropdownDisabled text_lt false false "superAdmin" "manager" = true.
Proof.
  split; [|by vm_compute].
  unfold isDeleteDisabled. simpl. by rewrite !andb_false_r.
Qed.

(** X3. Among the roles of the enumeration, whoever may delete a row may
    also open its role select, unless the acting role is superAdmin. *)
Theorem delete_enabled_dropdown_enabled r1 r2 loading isCurrentUser :
  r1 ∈ availableRoles → r2 ∈ availableRoles → r1 ≠ "superAdmin" →
  isDeleteDisabled text_lt loading isCurrentUser r1 r2 = false →
  isDropdownDisabled text_lt loading isCurrentUser r1 r2 = false.
Proof.
  intros [l1 [E1 _]]%availableRoles_level [l2 [E2 _]]%availableRoles_level.
  intros Hne%String.eqb_neq. unfold isDeleteDisabled, isDropdownDisabled.
  rewrite (get_level _ _ E1), (get_level _ _ E2), Hne. simpl.
  destruct loading, isCurrentUser; simpl; try discriminate.
  rewrite andb_true_r. intros [Hle _]%orb_false_iff.
  apply Z.leb_gt in Hle. apply Z.ltb_ge. lia.
Qed.

(** X4. Two users of the enumeration can delete each other only when both
    are superAdmin: in every other pair at most one Delete button is
    enabled. *)
Theorem mutual_delete_only_superAdmins r1 r2 :
  r1 ∈ availableRoles → r2 ∈ availableRoles →
  (isDeleteDisabled text_lt false false r1 r2 = false
   ∧ isDeleteDisabled text_lt false false r2 r1 = false)
  ↔ r1 = "superAdmin" ∧ r2 = "superAdmin".
Proof.
  intros [l1 [E1 _]]%availableRoles_level [l2 [E2 _]]%availableRoles_level.
  unfold isDeleteDisabled.
  rewrite (get_level _ _ E1), (get_level _ _ E2). simpl.
  rewrite !orb_false_iff, !andb_false_iff, !negb_false_iff.
  rewrite !Z.leb_gt, !String.eqb_eq, !String.eqb_neq.
  split.
  - intros [[H1 H1'] [H2 H2']].
    destruct H1 as [H1 | ->], H2 as [H2 | ->]; try lia; tauto.
  - intros [-> ->]. tauto.
Qed.

(** X5. Two users of the enumeration can change each other's role exactly
    when they hold the same role. *)
Theorem mutual_role_change_same_role r1 r2 :
  r1 ∈ availableRoles → r2 ∈ availableRoles →
  (isDropdownDisabled text_lt false false r1 r2 = false
   ∧ isDropdownDisabled text_lt false false r2 r1 = false)
  ↔ r1 = r2.
Proof.
  intros [l1 [E1 _]]%availableRoles_level [l2 [E2 _]]%availableRoles_level.
  unfold isDropdownDisabled.
  rewrite (get_level _ _ E1), (get_level _ _ E2). simpl.
  rewrite !Z.ltb_ge. split.
  - intros [H1 H2]. assert (l1 = l2) as -> by lia.
    by eapply ROLE_LEVELS_inj.
  - intros ->. assert (l1 = l2) as -> by congruence. lia.
Qed.
End HierarchyPolicy.

(** ** More on the handlers and the rendering *)

(** [run_handler], then the reads of the state cells it leaves behind. *)
Ltac run_to_state :=
  unfold Dashboard.accepts, Dashboard.rejects, Dashboard.settled,
    Dashboard.in_flight;
  run_handler;
  cbn [Dashboard.users Dashboard.loading Dashboard.error Dashboard.message
       Dashboard.viewingUserId Dashboard.viewingUserEmail].

Section Evaluation.
Import Dashboard.
Variable authToken : jsstring.

Lemma fetchUsers_accepts d s events :
  fetchUsers authToken (accepts d) {| view := s; log := events |}
  = (Done (),
     {| view := settled s (default [] (data_users d)) EmptyString EmptyString;
        log := events ++ [Sent (GET_users authToken) (in_flight s)] |}).
Proof. run_to_state. reflexivity. Qed.

Lemma fetchUsers_fails net s events :
  succeeds net = false →
  ∃ e, e ≠ EmptyString
    ∧ fetchUsers authToken net {| view := s; log := events |}
      = (Done (),
         {| view := settled s (users s) e EmptyString;
            log := events ++ [Sent (GET_users authToken) (in_flight s)] |}).
Proof.
  destruct net as [|[[] [d|]]]; try discriminate; intros _;
    eexists; (split; [|run_to_state; reflexivity]);
    auto using or_else_nonempty; done.
Qed.

Lemma handleChangeRole_accepts render userId email newRole d s events :
  handleChangeRole authToken render userId email newRole (accepts d)
    {| view := s; log := events |}
  = (Done (),
     {| view :=
          settled s
            ((λ user : user,
                if strict_eq (user !! "_id") userId
                then <["role" := newRole]> user else user) <$> users render)
            EmptyString
            (or_else (data_message d)
               ("Role for " +:+ to_text email +:+ " updated to "
                +:+ newRole +:+ "."));
        log := events
               ++ [Sent (PUT_changeRole authToken email newRole)
                     (in_flight s)] |}).
Proof. run_to_state. reflexivity. Qed.

Lemma handleChangeRole_fails render userId email newRole net s events :
  succeeds net = false →
  ∃ e, e ≠ EmptyString
    ∧ handleChangeRole authToken render userId email newRole net
        {| view := s; log := events |}
      = (Done (),
         {| view := settled s (users s) e EmptyString;
            log := events
                   ++ [Sent (PUT_changeRole authToken email newRole)
                         (in_flight s)] |}).
Proof.
  destruct net as [|[[] [d|]]]; try discriminate; intros _;
    eexists; (split; [|run_to_state; reflexivity]);
    auto using or_else_nonempty; done.
Qed.

Lemma handleDeleteUser_accepts render userId userEmail d s events :
  ∃ text,
    handleDeleteUser authToken render userId userEmail true (accepts d)
      {| view := s; log := events |}
    = (Done (),
       {| view :=
            settled s
              (filter (λ user : user, user !! "_id" ≠ userId) (users render))
              EmptyString
              (or_else (data_message d)
                 ("User " +:+ to_text userEmail +:+ " deleted successfully."));
          log := (events ++ [Prompted text])
                 ++ [Sent (DELETE_user authToken userId) (in_flight s)] |}).
Proof. eexists. run_to_state. reflexivity. Qed.

Lemma handleDeleteUser_fails render userId userEmail net s events :
  succeeds net = false →
  ∃ e text, e ≠ EmptyString
    ∧ handleDeleteUser authToken render userId userEmail true net
        {| view := s; log := events |}
      = (Done (),
         {| view := settled s (users s) e EmptyString;
            log := (events ++ [Prompted text])
                   ++ [Sent (DELETE_user authToken userId) (in_flight s)] |}).
Proof.
  destruct net as [|[[] [d|]]]; try discriminate; intros _;
    eexists _, _; (split; [|run_to_state; reflexivity]);
    auto using or_else_nonempty; done.
Qed.
End Evaluation.

Section Roster_actions.
Import Dashboard.
Variable authToken : jsstring.

(** The map and the filter of the two roster actions. *)
Local Abbreviation with_role userId newRole :=
  (λ user : user,
     if strict_eq (user !! "_id") userId
     then <["role" := newRole]> user else user).
Local Abbreviation other_than userId :=
  (λ user : user, user !! "_id" ≠ userId).

Lemma with_role_lookup userId newRole (u : user) k :
  k ≠ "role" → with_role userId newRole u !! k = u !! k.
Proof.
  intros Hk. simpl. destruct (strict_eq _ _); [|done].
  by apply lookup_insert_ne.
Qed.

Lemma filter_with_role userId id' newRole (l : list user) :
  filter (other_than id') (with_role userId newRole <$> l)
  = with_role userId newRole <$> filter (other_than id') l.
Proof.
  induction l as [|u l IH]; [done|].
  rewrite fmap_cons, !filter_cons, IH.
  rewrite (with_role_lookup userId newRole u "_id") by done.
  by destruct (decide _).
Qed.

(** X6. A successful [fetchUsers] replaces whatever roster was shown by the
    list of the reply, and by the empty list when the reply has none; both
    banners are empty, the view target is kept, and fetching again with the
    same reply changes nothing more. *)
Theorem fetchUsers_success_replaces d s events :
  ∃ w',
    fetchUsers authToken (accepts d) {| view := s; log := events |}
    = (Done (), w')
    ∧ users (view w') = default [] (data_users d)
    ∧ (data_users d = None → users (view w') = [])
    ∧ error (view w') = EmptyString ∧ message (view w') = EmptyString
    ∧ loading (view w') = false
    ∧ viewingUserId (view w') = viewingUserId s
    ∧ viewingUserEmail (view w') = viewingUserEmail s
    ∧ view (run (fetchUsers authToken (accepts d)) w') = view w'.
Proof.
  eexists. split; [apply fetchUsers_accepts|]. cbn [view].
  split; [done|]. split; [by intros ->|]. do 5 (split; [done|]).
  unfold run. by rewrite fetchUsers_accepts.
Qed.

(** X7. A failed operation, whether the server refuses or no usable response
    arrives, changes nothing but the banners: the roster and the view target
    are as before (the stale role included), loading is cleared, the message
    is empty and an error is shown. *)
Theorem failures_keep_roster net render userId email newRole s events :
  succeeds net = false →
  ∀ op,
    op ∈ [fetchUsers authToken net;
          handleChangeRole authToken render userId email newRole net;
          handleDeleteUser authToken render userId email true net] →
    ∃ e w',
      op {| view := s; log := events |} = (Done (), w')
      ∧ view w' = settled s (users s) e EmptyString
      ∧ e ≠ EmptyString
      ∧ users (view w') = users s
      ∧ viewingUserId (view w') = viewingUserId s
      ∧ viewingUserEmail (view w') = viewingUserEmail s.
Proof.
  intros Hnet op. rewrite !elem_of_cons, elem_of_nil.
  intros [-> | [-> | [-> | []]]].
  - destruct (fetchUsers_fails authToken net s events Hnet) as (e & He & ->).
    by exists e; eexists.
  - destruct (handleChangeRole_fails authToken render userId email newRole
                net s events Hnet) as (e & He & ->).
    by exists e; eexists.
  - destruct (handleDeleteUser_fails authToken render userId email
                net s events Hnet) as (e & text & He & ->).
    by exists e; eexists.
Qed.

(** X8. A role change the server accepts for an identifier no roster entry
    carries leaves the roster as it is, and still reports success. *)
Theorem handleChangeRole_unknown_id st userId email newRole d events :
  Forall (λ user : user, user !! "_id" ≠ userId) (users st) →
  ∃ w',
    handleChangeRole authToken st userId email newRole (accepts d)
      {| view := st; log := events |} = (Done (), w')
    ∧ users (view w') = users st
    ∧ message (view w') ≠ EmptyString.
Proof.
  intros Hnone. eexists. split; [apply handleChangeRole_accepts|].
  cbn [view settled users message]. split.
  - apply fmap_fixed. eapply Forall_impl; [exact Hnone|].
    intros u Hu. unfold strict_eq. by rewrite bool_decide_eq_false_2.
  - by apply or_else_nonempty.
Qed.

(** X9. On every roster, distinct identifiers or not, a successful role
    change keeps the number of entries and, entry by entry and in order,
    every property other than the role: identifiers, names and e-mails stay,
    so distinct identifiers stay distinct. *)
Theorem handleChangeRole_keeps_properties st userId email newRole d events k :
  k ≠ "role" →
  ∃ w',
    handleChangeRole authToken st userId email newRole (accepts d)
      {| view := st; log := events |} = (Done (), w')
    ∧ length (users (view w')) = length (users st)
    ∧ (λ user : user, user !! k) <$> users (view w')
      = (λ user : user, user !! k) <$> users st
    ∧ (NoDup ((λ user : user, user !! "_id") <$> users st) →
       NoDup ((λ user : user, user !! "_id") <$> users (view w'))).
Proof.
  intros Hk. eexists. split; [apply handleChangeRole_accepts|].
  cbn [view settled users].
  assert (Hkeep : ∀ k', k' ≠ "role" →
            (λ user : user, user !! k')
              <$> (with_role userId newRole <$> users st)
            = (λ user : user, user !! k') <$> users st).
  { intros k' Hk'. rewrite <- list_fmap_compose. apply list_fmap_ext.
    intros _ u _. by apply with_role_lookup. }
  split; [by rewrite length_fmap|]. split; [by apply Hkeep|].
  by rewrite Hkeep.
Qed.

(** X10. After a successful role change every entry that carries the
    identifier holds the new role, also when several entries share it, and
    every entry that carries another identifier was in the roster before. *)
Theorem handleChangeRole_sets_all_matching st userId email newRole d events :
  ∃ w',
    handleChangeRole authToken st userId email newRole (accepts d)
      {| view := st; log := events |} = (Done (), w')
    ∧ ∀ u : user, u ∈ users (view w') →
        (u !! "_id" = userId → u !! "role" = Some newRole)
        ∧ (u !! "_id" ≠ userId → u ∈ users st).
Proof.
  eexists. split; [apply handleChangeRole_accepts|].
  cbn [view settled users].
  intros u (v & -> & Hv)%list_elem_of_fmap. unfold strict_eq.
  case_bool_decide as Hid.
  - split; [intros _; apply lookup_insert_eq|].
    rewrite lookup_insert_ne by done. by intros [].
  - by split.
Qed.
(** X11. Changing a role and changing it back, each by a click on the roster
    then on screen, restores the roster exactly, when the entries that carry
    the identifier held the old role. *)
Theorem handleChangeRole_round_trip st userId email r r0 d d' events :
  Forall (λ user : user, user !! "_id" = userId → user !! "role" = Some r0)
    (users st) →
  let w1 :=
    click (λ render,
             handleChangeRole authToken render userId email r (accepts d))
      {| view := st; log := events |} in
  let w2 :=
    click (λ render,
             handleChangeRole authToken render userId email r0 (accepts d'))
      w1 in
  users (view w2) = users st.
Proof.
  intros Hold. unfold click, run. cbn [view].
  rewrite handleChangeRole_accepts. cbn [snd view settled users].
  rewrite handleChangeRole_accepts. cbn [snd view settled users].
  rewrite <- list_fmap_compose. apply fmap_fixed.
  eapply Forall_impl; [exact Hold|]. intros u Hu.
  unfold compose, strict_eq. cbv beta.
  destruct (decide (u !! "_id" = userId)) as [Hid | Hid].
  - rewrite (bool_decide_eq_true_2 _ Hid).
    rewrite lookup_insert_ne, (bool_decide_eq_true_2 _ Hid) by done.
    rewrite insert_insert_eq. apply insert_id. auto.
  - by rewrite !(bool_decide_eq_false_2 _ Hid).
Qed.

(** X12. Repeating an accepted action from the screen it produced changes
    nothing more: a second identical role change, and a second delete of the
    same identifier, leave the roster as the first one made it. *)
Theorem repeated_action_idempotent st userId email newRole d d' events :
  let change net :=
    click (λ render,
             handleChangeRole authToken render userId email newRole net) in
  let delete net :=
    click (λ render,
             handleDeleteUser authToken render userId email true net) in
  let w := {| view := st; log := events |} in
  users (view (change (accepts d') (change (accepts d) w)))
  = users (view (change (accepts d) w))
  ∧ users (view (delete (accepts d') (delete (accepts d) w)))
    = users (view (delete (accepts d) w)).
Proof.
  cbn zeta. unfold click, run. cbn [view]. split.
  - rewrite handleChangeRole_accepts. cbn [snd view settled users].
    rewrite handleChangeRole_accepts. cbn [snd view settled users].
    rewrite <- list_fmap_compose. apply list_fmap_ext. intros _ u _.
    unfold compose, strict_eq. cbv beta.
    destruct (decide (u !! "_id" = userId)) as [Hid | Hid].
    + rewrite (bool_decide_eq_true_2 _ Hid).
      rewrite lookup_insert_ne, (bool_decide_eq_true_2 _ Hid) by done.
      apply insert_insert_eq.
    + by rewrite !(bool_decide_eq_false_2 _ Hid).
  - destruct (handleDeleteUser_accepts authToken st userId email d st events)
      as [text ->]. cbn [snd view settled users].
    match goal with
    | |- context [handleDeleteUser _ ?r _ _ _ _ {| view := ?s; log := ?l |}] =>
        destruct (handleDeleteUser_accepts authToken r userId email d' s l)
          as [text' ->]
    end.
    cbn [snd view settled users].
    rewrite list_filter_filter. apply list_filter_iff. tauto.
Qed.

(** X13. On every roster a successful delete keeps exactly the entries that
    carry another identifier, in their order: none with the identifier
    remains, also when several shared it, nothing else is lost or added, and
    distinct identifiers stay distinct. *)
Theorem handleDeleteUser_removes_all_matching st userId userEmail d events :
  ∃ w',
    handleDeleteUser authToken st userId userEmail true (accepts d)
      {| view := st; log := events |} = (Done (), w')
    ∧ (∀ u : user,
         u ∈ users (view w') ↔ u ∈ users st ∧ u !! "_id" ≠ userId)
    ∧ users (view w') `sublist_of` users st
    ∧ (NoDup ((λ user : user, user !! "_id") <$> users st) →
       NoDup ((λ user : user, user !! "_id") <$> users (view w'))).
Proof.
  destruct (handleDeleteUser_accepts authToken st userId userEmail d st events)
    as [text ->].
  eexists. split; [reflexivity|]. cbn [view settled users].
  split; [|split].
  - intros u. rewrite list_elem_of_filter. tauto.
  - apply sublist_filter.
  - intros Hnd. eapply sublist_NoDup; [exact Hnd|].
    apply fmap_sublist, sublist_filter.
Qed.

(** X14. A delete the server accepts for an identifier no roster entry
    carries leaves the roster as it is, and still reports success. *)
Theorem handleDeleteUser_unknown_id st userId userEmail d events :
  Forall (λ user : user, user !! "_id" ≠ userId) (users st) →
  ∃ w',
    handleDeleteUser authToken st userId userEmail true (accepts d)
      {| view := st; log := events |} = (Done (), w')
    ∧ users (view w') = users st
    ∧ message (view w') ≠ EmptyString.
Proof.
  intros Hnone.
  destruct (handleDeleteUser_accepts authToken st userId userEmail d st events)
    as [text ->].
  eexists. split; [reflexivity|]. cbn [view settled users message].
  split; [by apply filter_all | by apply or_else_nonempty].
Qed.

(** X15. A role change and a delete, each clicked on the screen the other
    left, give the same roster in either order, for any two identifiers. *)
Theorem delete_changeRole_commute st userId email newRole id' email' d d'
    events :
  let change :=
    click (λ render,
             handleChangeRole authToken render userId email newRole
               (accepts d)) in
  let delete :=
    click (λ render,
             handleDeleteUser authToken render id' email' true (accepts d')) in
  let w := {| view := st; log := events |} in
  users (view (delete (change w))) = users (view (change (delete w))).
Proof.
  cbn zeta. unfold click, run. cbn [view].
  rewrite handleChangeRole_accepts. cbn [snd view settled users].
  match goal with
  | |- context [handleDeleteUser _ ?r _ _ _ _ {| view := ?s; log := ?l |}] =>
      destruct (handleDeleteUser_accepts authToken r id' email' d' s l)
        as [text ->]
  end.
  cbn [snd view settled users].
  destruct (handleDeleteUser_accepts authToken st id' email' d' st events)
    as [text' ->].
  cbn [snd view settled users].
  rewrite handleChangeRole_accepts. cbn [snd view settled users].
  apply filter_with_role.
Qed.
End Roster_actions.

Section Sending.
Import Dashboard.
Variable authToken : jsstring.

(** Whatever the network answers, each operation sends its one request from
    the in-flight state and returns. *)
Lemma fetchUsers_sends net s events :
  ∃ s',
    fetchUsers authToken net {| view := s; log := events |}
    = (Done (),
       {| view := s';
          log := events ++ [Sent (GET_users authToken) (in_flight s)] |}).
Proof.
  destruct net as [|[[] [d|]]]; eexists; run_to_state; reflexivity.
Qed.

Lemma handleChangeRole_sends render userId email newRole net s events :
  ∃ s',
    handleChangeRole authToken render userId email newRole net
      {| view := s; log := events |}
    = (Done (),
       {| view := s';
          log := events
                 ++ [Sent (PUT_changeRole authToken email newRole)
                       (in_flight s)] |}).
Proof.
  destruct net as [|[[] [d|]]]; eexists; run_to_state; reflexivity.
Qed.

Lemma handleDeleteUser_sends render userId userEmail net s events :
  ∃ s' text,
    handleDeleteUser authToken render userId userEmail true net
      {| view := s; log := events |}
    = (Done (),
       {| view := s';
          log := (events ++ [Prompted text])
                 ++ [Sent (DELETE_user authToken userId) (in_flight s)] |}).
Proof.
  destruct net as [|[[] [d|]]]; eexists _, _; run_to_state; reflexivity.
Qed.
End Sending.

Section Rendering.
Import Dashboard.
Variables authToken currentUserRole : jsstring.
Variable text_lt : string → string → bool.
Variable loggedInUserEmail : jsstring.

Local Abbreviation admin_roles :=
  [Some "admin"; Some "superAdmin"; Some "manager"].
Local Abbreviation shown s :=
  (render authToken currentUserRole text_lt loggedInUserEmail s).
Local Abbreviation locked :=
  (λ r : row, select_disabled r = true ∧ delete_disabled r = true).

Lemma admin_roles_strict_eq :
  bool_decide (currentUserRole ∈ admin_roles)
  = strict_eq currentUserRole (Some "admin")
    || strict_eq currentUserRole (Some "superAdmin")
    || strict_eq currentUserRole (Some "manager").
Proof.
  unfold strict_eq. apply eq_true_iff_eq.
  rewrite !orb_true_iff, !bool_decide_eq_true.
  rewrite !elem_of_cons, elem_of_nil. tauto.
Qed.

Lemma render_admin s :
  truthy authToken = true → currentUserRole ∈ admin_roles →
  shown s
  = if truthy (viewingUserId s) then
      TodoList ("Todos for " +:+ or_else (viewingUserEmail s) "Selected User")
        authToken currentUserRole (viewingUserId s) (viewingUserEmail s)
    else
      UserList (banner (error s)) (banner (message s)) (loading s)
        (bool_decide (length (users s) = 0%nat) && negb (loading s)
         && String.eqb (error s) EmptyString)
        (if bool_decide (0 < length (users s))%nat
         then Some (render_row currentUserRole text_lt loggedInUserEmail s
                      <$> users s)
         else None).
Proof.
  intros Htok Hrole. apply (bool_decide_eq_true_2 _) in Hrole.
  rewrite admin_roles_strict_eq in Hrole.
  unfold render. rewrite Htok. simpl.
  by destruct (strict_eq currentUserRole (Some "admin")),
       (strict_eq currentUserRole (Some "superAdmin")),
       (strict_eq currentUserRole (Some "manager")).
Qed.

Lemma shown_cases s :
  shown s = PleaseLogIn ∨ shown s = AccessDenied
  ∨ (∃ title,
       shown s
       = TodoList title authToken currentUserRole (viewingUserId s)
           (viewingUserEmail s))
  ∨ shown s
    = UserList (banner (error s)) (banner (message s)) (loading s)
        (bool_decide (length (users s) = 0%nat) && negb (loading s)
         && String.eqb (error s) EmptyString)
        (if bool_decide (0 < length (users s))%nat
         then Some (render_row currentUserRole text_lt loggedInUserEmail s
                      <$> users s)
         else None).
Proof.
  unfold render.
  destruct (negb (truthy authToken)); [by left|].
  destruct (_ && _); [by right; left|].
  destruct (truthy (viewingUserId s)); [right; right; left; by eexists|].
  by right; right; right.
Qed.

Lemma rows_of_shown s :
  rows_of (shown s) = []
  ∨ rows_of (shown s)
    = render_row currentUserRole text_lt loggedInUserEmail s <$> users s.
Proof.
  unfold render.
  repeat match goal with
         | |- context [if ?c then _ else _] => destruct c
         end; simpl; auto.
Qed.

Lemma rows_locked_when_loading s :
  loading s = true → Forall locked (rows_of (shown s)).
Proof.
  intros Hl. destruct (rows_of_shown s) as [-> | ->]; [constructor|].
  apply Forall_fmap, Forall_true. intros u.
  unfold render_row, Hierarchy.isDropdownDisabled, Hierarchy.isDeleteDisabled.
  cbn [select_disabled delete_disabled]. by rewrite Hl.
Qed.

(** X16. While the request of any of the three operations is in flight the
    loading flag is set, and in the screen of that moment every row of the
    table has its role select and its Delete button disabled. *)
Theorem in_flight_rows_locked net render userId email newRole s events :
  let w := {| view := s; log := events |} in
  let sent_locked (op : M unit) (rq : request) :=
    ∃ during,
      requests (log (run op w)) = requests events ++ [(rq, during)]
      ∧ loading during = true
      ∧ Forall locked (rows_of (shown during)) in
  sent_locked (fetchUsers authToken net) (GET_users authToken)
  ∧ sent_locked (handleChangeRole authToken render userId email newRole net)
      (PUT_changeRole authToken email newRole)
  ∧ sent_locked (handleDeleteUser authToken render userId email true net)
      (DELETE_user authToken userId).
Proof.
  cbn zeta. unfold run. repeat split.
  - destruct (fetchUsers_sends authToken net s events) as [s' ->].
    exists (in_flight s). cbn [snd log]. rewrite requests_app.
    split; [done|]. split; [done|]. by apply rows_locked_when_loading.
  - destruct (handleChangeRole_sends authToken render userId email newRole
                net s events) as [s' ->].
    exists (in_flight s). cbn [snd log]. rewrite requests_app.
    split; [done|]. split; [done|]. by apply rows_locked_when_loading.
  - destruct (handleDeleteUser_sends authToken render userId email
                net s events) as (s' & text & ->).
    exists (in_flight s). cbn [snd log]. rewrite !requests_app.
    cbn [requests]. rewrite app_nil_r.
    split; [done|]. split; [done|]. by apply rows_locked_when_loading.
Qed.

(** X17. The row of the logged-in operator, recognised by its e-mail, has
    both controls disabled in every state and for every role; a row whose
    e-mail is another string is not the operator's: a superAdmin may delete
    from it when nothing is loading. *)
Theorem self_row_locked s (u : user) mine :
  u !! "email" = Some mine →
  locked (render_row currentUserRole text_lt (Some mine) s u)
  ∧ ∀ (v : user) other s',
      v !! "email" = Some other → other ≠ mine → loading s' = false →
      delete_disabled (render_row (Some "superAdmin") text_lt (Some mine) s' v)
      = false.
Proof.
  intros He. split.
  - unfold render_row, Hierarchy.isDropdownDisabled,
      Hierarchy.isDeleteDisabled.
    cbn [select_disabled delete_disabled]. rewrite He, String.eqb_refl.
    by rewrite !orb_true_r.
  - intros v other s' Hv Hne%String.eqb_neq Hl.
    unfold render_row, Hierarchy.isDeleteDisabled.
    cbn [delete_disabled]. rewrite Hl, Hv, Hne. simpl.
    by rewrite !andb_false_r.
Qed.

(** X18. The dashboard is never blank: whenever the list screen is rendered
    it shows the table, the loading notice, an error, or the notice that
    there are no users; and it shows the table exactly when the roster is
    not empty, one row per entry, in the roster's order. *)
Theorem user_list_never_blank s :
  match shown s with
  | UserList error_banner message_banner loading_banner no_users table =>
      (is_Some table ∨ loading_banner = true ∨ is_Some error_banner
       ∨ no_users = true)
      ∧ (is_Some table ↔ users s ≠ [])
      ∧ (no_users = true → table = None)
      ∧ key <$> rows_of (shown s) = (λ u : user, u !! "_id") <$> users s
  | _ => True
  end.
Proof.
  destruct (shown_cases s) as [-> | [-> | [[t ->] | ->]]]; try exact I.
  cbn [rows_of]. destruct (users s) as [|u l] eqn:Hu; cbn [length].
  - rewrite (bool_decide_eq_false_2 (0 < 0)%nat) by lia.
    rewrite (bool_decide_eq_true_2 (0%nat = 0%nat)) by done.
    cbn [andb rows_of]. split; [|split; [|split]]; try done.
    destruct (loading s); [by auto|]. unfold banner.
    destruct (String.eqb (error s) EmptyString); cbn [negb andb]; auto.
  - rewrite (bool_decide_eq_true_2 (0 < S (length l))%nat) by lia.
    rewrite (bool_decide_eq_false_2 (S (length l) = 0%nat)) by done.
    cbn [andb rows_of]. split; [|split; [|split]]; try done.
    + left. by eexists.
    + by rewrite <- list_fmap_compose.
Qed.
Lemma handleViewUserTodos_run userId userEmail s events :
  handleViewUserTodos userId userEmail {| view := s; log := events |}
  = (Done (),
     {| view := {| users := users s; loading := loading s; error := error s;
                   message := message s; viewingUserId := userId;
                   viewingUserEmail := userEmail |};
        log := events |}).
Proof.
  unfold handleViewUserTodos, setViewingUserId, setViewingUserEmail.
  run_to_state. reflexivity.
Qed.

Lemma handleBackToUsers_run net s events :
  handleBackToUsers authToken net {| view := s; log := events |}
  = fetchUsers authToken net
      {| view := {| users := users s; loading := loading s;
                    error := error s; message := message s;
                    viewingUserId := None; viewingUserEmail := None |};
         log := events |}.
Proof.
  unfold handleBackToUsers, setViewingUserId, setViewingUserEmail, update.
  unfold mbind, M_bind. cbn [view log users loading error message].
  reflexivity.
Qed.

(** X19. The mount effect and the render test the same gate: with a token
    and a role of the three the effect sends the roster request and the
    render shows neither notice; otherwise the effect sends nothing and
    keeps the roster, and every render is a notice, the one to log in when
    the token is missing, whatever the role. *)
Theorem gate_consistent net s events :
  let w' :=
    run (useEffect authToken currentUserRole net)
      {| view := s; log := events |} in
  if truthy authToken && bool_decide (currentUserRole ∈ admin_roles)
  then
    (∃ during,
       requests (log w') = requests events ++ [(GET_users authToken, during)])
    ∧ ∀ s', shown s' ≠ PleaseLogIn ∧ shown s' ≠ AccessDenied
  else
    log w' = events ∧ users (view w') = users s
    ∧ ∀ s', shown s' = if truthy authToken then AccessDenied else PleaseLogIn.
Proof.
  cbn zeta. unfold run, useEffect.
  destruct (truthy authToken) eqn:Htok; cbn [andb negb].
  - destruct (bool_decide (currentUserRole ∈ admin_roles)) eqn:Hrole.
    + rewrite <- admin_roles_strict_eq, Hrole. split.
      * destruct (fetchUsers_sends authToken net s events) as [s' ->].
        eexists. cbn [snd log]. by rewrite requests_app.
      * intros s'. apply bool_decide_eq_true in Hrole.
        rewrite (render_admin s' Htok Hrole).
        by destruct (truthy (viewingUserId s')).
    + rewrite <- admin_roles_strict_eq, Hrole.
      pose proof Hrole as Hnone. rewrite admin_roles_strict_eq in Hnone.
      apply orb_false_iff in Hnone as [[Ha Hs]%orb_false_iff Hm].
      rewrite Ha, Hs, Hm. cbn [negb andb].
      split; [by destruct (truthy currentUserRole)|].
      split; [by destruct (truthy currentUserRole)|].
      intros s'. unfold render. by rewrite Htok, Ha, Hs, Hm.
  - split; [done|]. split; [done|]. intros s'. unfold render. by rewrite Htok.
Qed.

(** X20. For an operator the gate lets in, asking for a user's to-dos sends
    nothing and keeps the roster; the screen switches to that user's to-do
    list only when the user's identifier is a non-empty string, titled with
    the e-mail or, failing one, with a fixed text; otherwise the list screen
    stays. *)
Theorem view_todos_needs_id userId userEmail s events :
  truthy authToken = true → currentUserRole ∈ admin_roles →
  let w' :=
    run (handleViewUserTodos userId userEmail)
      {| view := s; log := events |} in
  log w' = events ∧ users (view w') = users s
  ∧ if truthy userId then
      shown (view w')
      = TodoList ("Todos for " +:+ or_else userEmail "Selected User")
          authToken currentUserRole userId userEmail
      ∧ (truthy userEmail = false →
         shown (view w')
         = TodoList "Todos for Selected User" authToken currentUserRole
             userId userEmail)
    else
      ∃ error_banner message_banner loading_banner no_users table,
        shown (view w')
        = UserList error_banner message_banner loading_banner no_users table.
Proof.
  intros Htok Hrole. cbn zeta. unfold run.
  rewrite handleViewUserTodos_run. cbn [snd view log users].
  split; [done|]. split; [done|].
  rewrite (render_admin _ Htok Hrole). cbn [viewingUserId viewingUserEmail].
  destruct (truthy userId).
  - split; [done|]. intros He. unfold or_else. by rewrite He.
  - by eexists _, _, _, _, _.
Qed.

(** X21. Whatever role an operator of the enumeration acts on, every option
    left enabled in a row's select is a role of the table whose level is at
    most the operator's own: the select offers no promotion above the
    operator, and none at all to manager for a superAdmin. *)
Theorem enabled_option_within_level r s (u : user) role :
  r ∈ Hierarchy.availableRoles →
  (role, false)
    ∈ options (render_row (Some r) text_lt loggedInUserEmail s u) →
  ∃ lc lo,
    Hierarchy.ROLE_LEVELS !! r = Some lc
    ∧ Hierarchy.ROLE_LEVELS !! role = Some lo
    ∧ lo ≤ lc.
Proof.
  intros [lc [Ec _]]%availableRoles_level.
  unfold render_row. cbn [options].
  intros (role' & [= <- Hdis] & [lo [Eo _]]%availableRoles_level)
    %list_elem_of_fmap.
  exists lc, lo. split; [done|]. split; [done|].
  symmetry in Hdis. unfold Hierarchy.isOptionDisabled, Hierarchy.gt in Hdis.
  cbn [to_text default] in Hdis.
  rewrite (get_level _ _ Ec), (get_level _ _ Eo) in Hdis.
  apply orb_false_iff in Hdis as [Hlt _]. cbn [Hierarchy.lt] in Hlt.
  apply Z.ltb_ge in Hlt. lia.
Qed.

(** X22. Viewing a user's to-dos and going back sends exactly one request,
    the roster fetch, and ends on the list screen with the view target
    cleared and loading off: the roster is the reply's when the fetch
    succeeds and the one shown before when it fails. *)
Theorem view_then_back userId userEmail net s events :
  let w1 :=
    run (handleViewUserTodos userId userEmail)
      {| view := s; log := events |} in
  let w2 := run (handleBackToUsers authToken net) w1 in
  (∃ during,
     requests (log w2) = requests events ++ [(GET_users authToken, during)])
  ∧ viewingUserId (view w2) = None ∧ viewingUserEmail (view w2) = None
  ∧ loading (view w2) = false
  ∧ (∀ title token role uid email,
       shown (view w2) ≠ TodoList title token role uid email)
  ∧ (∀ d, net = accepts d → users (view w2) = default [] (data_users d))
  ∧ (succeeds net = false → users (view w2) = users s).
Proof.
  cbn zeta. unfold run. rewrite handleViewUserTodos_run. cbn [snd].
  rewrite handleBackToUsers_run. cbn [users loading error message].
  set (s1 := {| users := users s; loading := loading s; error := error s;
                message := message s; viewingUserId := None;
                viewingUserEmail := None |}).
  assert (Hview :
    ∃ l e m, snd (fetchUsers authToken net {| view := s1; log := events |})
             = {| view := settled s1 l e m;
                  log := events
                         ++ [Sent (GET_users authToken) (in_flight s1)] |}
             ∧ (∀ d, net = accepts d → l = default [] (data_users d))
             ∧ (succeeds net = false → l = users s)).
  { destruct (succeeds net) eqn:Hnet.
    - destruct net as [|[[] [d|]]]; try discriminate.
      exists (default [] (data_users d)), EmptyString, EmptyString.
      pose proof (fetchUsers_accepts authToken d s1 events) as Hrun.
      unfold accepts in *. rewrite Hrun. split; [done|].
      split; [by intros d' [= ->] | done].
    - destruct (fetchUsers_fails authToken net s1 events Hnet)
        as (e & _ & ->).
      exists (users s), e, EmptyString. split; [done|].
      split; [|done]. intros d ->. discriminate. }
  destruct Hview as (l & e & m & -> & Hok & Hfail). cbn [view log].
  split; [eexists; by rewrite requests_app|].
  do 3 (split; [done|]). split; [|by split].
  intros title token role uid email.
  destruct (shown_cases (settled s1 l e m))
    as [-> | [-> | [[t Ht] | ->]]]; try done.
  revert Ht. unfold render.
  destruct (negb (truthy authToken)); [done|].
  destruct (_ && _); [done|]. by cbn.
Qed.
End Rendering.

(** ** The further theorems at concrete inputs *)

Lemma superAdmin_row_protected_witness :
  "manager" ≠ "superAdmin"
  ∧ (∀ role,
       Hierarchy.isOptionDisabled (λ _ _, false) "manager" "superAdmin" role
       = true)
  ∧ Hierarchy.isDeleteDisabled (λ _ _, false) false false
      "manager" "superAdmin" = true.
Proof.
  assert (H : "manager" ≠ "superAdmin")
    by (apply (bool_decide_unpack _); vm_compute; exact I).
  split; [exact H|].
  exact (superAdmin_row_protected (λ _ _, false) "manager" false false H).
Defined.

Lemma delete_enabled_dropdown_enabled_witness :
  "admin" ∈ Hierarchy.availableRoles
  ∧ "moderator" ∈ Hierarchy.availableRoles
  ∧ "admin" ≠ "superAdmin"
  ∧ Hierarchy.isDeleteDisabled (λ _ _, false) false false "admin" "moderator"
    = false
  ∧ Hierarchy.isDropdownDisabled (λ _ _, false) false false
      "admin" "moderator" = false.
Proof.
  assert (H1 : "admin" ∈ Hierarchy.availableRoles)
    by (apply (bool_decide_unpack _); vm_compute; exact I).
  assert (H2 : "moderator" ∈ Hierarchy.availableRoles)
    by (apply (bool_decide_unpack _); vm_compute; exact I).
  assert (H3 : "admin" ≠ "superAdmin")
    by (apply (bool_decide_unpack _); vm_compute; exact I).
  assert (H4 : Hierarchy.isDeleteDisabled (λ _ _, false) false false
                 "admin" "moderator" = false)
    by (vm_compute; reflexivity).
  split; [exact H1|]. split; [exact H2|]. split; [exact H3|].
  split; [exact H4|].
  exact (delete_enabled_dropdown_enabled (λ _ _, false) "admin" "moderator"
           false false H1 H2 H3 H4).
Defined.

Lemma mutual_delete_only_superAdmins_witness :
  "manager" ∈ Hierarchy.availableRoles
  ∧ "superAdmin" ∈ Hierarchy.availableRoles
  ∧ ((Hierarchy.isDeleteDisabled (λ _ _, false) false false
        "manager" "superAdmin" = false
      ∧ Hierarchy.isDeleteDisabled (λ _ _, false) false false
          "superAdmin" "manager" = false)
     ↔ "manager" = "superAdmin" ∧ "superAdmin" = "superAdmin").
Proof.
  assert (H1 : "manager" ∈ Hierarchy.availableRoles)
    by (apply (bool_decide_unpack _); vm_compute; exact I).
  assert (H2 : "superAdmin" ∈ Hierarchy.availableRoles)
    by (apply (bool_decide_unpack _); vm_compute; exact I).
  split; [exact H1|]. split; [exact H2|].
  exact (mutual_delete_only_superAdmins (λ _ _, false)
           "manager" "superAdmin" H1 H2).
Defined.

Lemma mutual_role_change_same_role_witness :
  "admin" ∈ Hierarchy.availableRoles
  ∧ "moderator" ∈ Hierarchy.availableRoles
  ∧ ((Hierarchy.isDropdownDisabled (λ _ _, false) false false
        "admin" "moderator" = false
      ∧ Hierarchy.isDropdownDisabled (λ _ _, false) false false
          "moderator" "admin" = false)
     ↔ "admin" = "moderator").
Proof.
  assert (H1 : "admin" ∈ Hierarchy.availableRoles)
    by (apply (bool_decide_unpack _); vm_compute; exact I).
  assert (H2 : "moderator" ∈ Hierarchy.availableRoles)
    by (apply (bool_decide_unpack _); vm_compute; exact I).
  split; [exact H1|]. split; [exact H2|].
  exact (mutual_role_change_same_role (λ _ _, false)
           "admin" "moderator" H1 H2).
Defined.

Lemma failures_keep_roster_witness :
  Dashboard.succeeds Dashboard.Unreachable = false
  ∧ ∃ e w',
      Dashboard.fetchUsers (Some "token") Dashboard.Unreachable
        {| Dashboard.view := Sample.listed; Dashboard.log := [] |}
      = (Dashboard.Done (), w')
      ∧ e ≠ EmptyString
      ∧ Dashboard.users (Dashboard.view w') = Dashboard.users Sample.listed.
Proof.
  assert (H : Dashboard.succeeds Dashboard.Unreachable = false)
    by reflexivity.
  split; [exact H|].
  destruct (failures_keep_roster (Some "token") Dashboard.Unreachable
              Sample.listed (Some "u1") (Some "alice@example.org") "admin"
              Sample.listed [] H
              (Dashboard.fetchUsers (Some "token") Dashboard.Unreachable)
              (list_elem_of_here _ _))
    as (e & w' & Hrun & _ & He & Hu & _).
  exists e, w'. split; [exact Hrun|]. split; [exact He | exact Hu].
Defined.

Lemma handleChangeRole_unknown_id_witness :
  Forall (λ user : Dashboard.user, user !! "_id" ≠ Some "u9")
    (Dashboard.users Sample.listed)
  ∧ ∃ w',
      Dashboard.handleChangeRole (Some "token") Sample.listed (Some "u9")
        (Some "carol@example.org") "admin" (Dashboard.accepts Sample.no_body)
        {| Dashboard.view := Sample.listed; Dashboard.log := [] |}
      = (Dashboard.Done (), w')
      ∧ Dashboard.users (Dashboard.view w') = Dashboard.users Sample.listed
      ∧ Dashboard.message (Dashboard.view w') ≠ EmptyString.
Proof.
  assert (H : Forall (λ user : Dashboard.user, user !! "_id" ≠ Some "u9")
                (Dashboard.users Sample.listed))
    by (apply (bool_decide_unpack _); vm_compute; exact I).
  split; [exact H|].
  exact (handleChangeRole_unknown_id (Some "token") Sample.listed (Some "u9")
           (Some "carol@example.org") "admin" Sample.no_body [] H).
Defined.

Lemma handleChangeRole_keeps_properties_witness :
  "_id" ≠ "role"
  ∧ ∃ w',
      Dashboard.handleChangeRole (Some "token") Sample.listed (Some "u2")
        (Some "bob@example.org") "admin" (Dashboard.accepts Sample.no_body)
        {| Dashboard.view := Sample.listed; Dashboard.log := [] |}
      = (Dashboard.Done (), w')
      ∧ (λ user : Dashboard.user, user !! "_id")
          <$> Dashboard.users (Dashboard.view w')
        = (λ user : Dashboard.user, user !! "_id")
            <$> Dashboard.users Sample.listed.
Proof.
  assert (H : "_id" ≠ "role")
    by (apply (bool_decide_unpack _); vm_compute; exact I).
  split; [exact H|].
  destruct (handleChangeRole_keeps_properties (Some "token") Sample.listed
              (Some "u2") (Some "bob@example.org") "admin" Sample.no_body []
              "_id" H)
    as (w' & Hrun & _ & Hids & _).
  exists w'. split; [exact Hrun | exact Hids].
Defined.

Lemma handleChangeRole_round_trip_witness :
  Forall (λ user : Dashboard.user,
            user !! "_id" = Some "u2" → user !! "role" = Some "moderator")
    (Dashboard.users Sample.listed)
  ∧ Dashboard.users
      (Dashboard.view
         (Dashboard.click
            (λ render,
               Dashboard.handleChangeRole (Some "token") render (Some "u2")
                 (Some "bob@example.org") "moderator"
                 (Dashboard.accepts Sample.no_body))
            (Dashboard.click
               (λ render,
                  Dashboard.handleChangeRole (Some "token") render
                    (Some "u2") (Some "bob@example.org") "admin"
                    (Dashboard.accepts Sample.no_body))
               {| Dashboard.view := Sample.listed; Dashboard.log := [] |})))
    = Dashboard.users Sample.listed.
Proof.
  assert (H : Forall (λ user : Dashboard.user,
                        user !! "_id" = Some "u2" →
                        user !! "role" = Some "moderator")
                (Dashboard.users Sample.listed))
    by (apply (bool_decide_unpack _); vm_compute; exact I).
  split; [exact H|].
  exact (handleChangeRole_round_trip (Some "token") Sample.listed (Some "u2")
           (Some "bob@example.org") "admin" "moderator"
           Sample.no_body Sample.no_body [] H).
Defined.

Lemma handleDeleteUser_unknown_id_witness :
  Forall (λ user : Dashboard.user, user !! "_id" ≠ Some "u9")
    (Dashboard.users Sample.listed)
  ∧ ∃ w',
      Dashboard.handleDeleteUser (Some "token") Sample.listed (Some "u9")
        (Some "carol@example.org") true (Dashboard.accepts Sample.no_body)
        {| Dashboard.view := Sample.listed; Dashboard.log := [] |}
      = (Dashboard.Done (), w')
      ∧ Dashboard.users (Dashboard.view w') = Dashboard.users Sample.listed
      ∧ Dashboard.message (Dashboard.view w') ≠ EmptyString.
Proof.
  assert (H : Forall (λ user : Dashboard.user, user !! "_id" ≠ Some "u9")
                (Dashboard.users Sample.listed))
    by (apply (bool_decide_unpack _); vm_compute; exact I).
  split; [exact H|].
  exact (handleDeleteUser_unknown_id (Some "token") Sample.listed (Some "u9")
           (Some "carol@example.org") Sample.no_body [] H).
Defined.

Lemma self_row_locked_witness :
  Sample.alice !! "email" = Some "alice@example.org"
  ∧ Dashboard.select_disabled
      (Dashboard.render_row (Some "superAdmin") (λ _ _, false)
         (Some "alice@example.org") Sample.listed Sample.alice) = true
  ∧ Dashboard.delete_disabled
      (Dashboard.render_row (Some "superAdmin") (λ _ _, false)
         (Some "alice@example.org") Sample.listed Sample.alice) = true.
Proof.
  assert (H : Sample.alice !! "email" = Some "alice@example.org")
    by (vm_compute; reflexivity).
  split; [exact H|].
  exact (proj1 (self_row_locked (Some "superAdmin") (λ _ _, false)
                  Sample.listed Sample.alice "alice@example.org" H)).
Defined.

Lemma view_todos_needs_id_witness :
  truthy (Some "token") = true
  ∧ Some "admin" ∈ [Some "admin"; Some "superAdmin"; Some "manager"]
  ∧ Dashboard.log
      (Dashboard.run (Dashboard.handleViewUserTodos None (Some "x@example.org"))
         {| Dashboard.view := Sample.listed; Dashboard.log := [] |}) = []
  ∧ ∃ error_banner message_banner loading_banner no_users table,
      Dashboard.render (Some "token") (Some "admin") (λ _ _, false) None
        (Dashboard.view
           (Dashboard.run
              (Dashboard.handleViewUserTodos None (Some "x@example.org"))
              {| Dashboard.view := Sample.listed; Dashboard.log := [] |}))
      = Dashboard.UserList error_banner message_banner loading_banner
          no_users table.
Proof.
  assert (H1 : truthy (Some "token") = true) by reflexivity.
  assert (H2 : Some "admin"
               ∈ [Some "admin"; Some "superAdmin"; Some "manager"])
    by (apply (bool_decide_unpack _); vm_compute; exact I).
  split; [exact H1|]. split; [exact H2|].
  destruct (view_todos_needs_id (Some "token") (Some "admin") (λ _ _, false)
              None None (Some "x@example.org") Sample.listed [] H1 H2)
    as (Hlog & _ & Hshown).
  split; [exact Hlog | exact Hshown].
Defined.

Lemma enabled_option_within_level_witness :
  "admin" ∈ Hierarchy.availableRoles
  ∧ ("user", false)
      ∈ Dashboard.options
          (Dashboard.render_row (Some "admin") (λ _ _, false) None
             Sample.listed Sample.bob)
  ∧ ∃ lc lo,
      Hierarchy.ROLE_LEVELS !! "admin" = Some lc
      ∧ Hierarchy.ROLE_LEVELS !! "user" = Some lo
      ∧ lo ≤ lc.
Proof.
  assert (H1 : "admin" ∈ Hierarchy.availableRoles)
    by (apply (bool_decide_unpack _); vm_compute; exact I).
  assert (H2 : ("user", false)
               ∈ Dashboard.options
                   (Dashboard.render_row (Some "admin") (λ _ _, false) None
                      Sample.listed Sample.bob))
    by (apply (bool_decide_unpack _); vm_compute; exact I).
  split; [exact H1|]. split; [exact H2|].
  exact (enabled_option_within_level (λ _ _, false) None "admin"
           Sample.listed Sample.bob "user" H1 H2).
Defined.
